(** * conan-fgw: the training configuration manager ([src/trainer.py])

    A shallow embedding of [TrainerHolder]: the metric names, the
    monitor target resolved by the constructor, the early-stopping and
    checkpoint policies, the strategy decision table and the assembly of
    the run object.  Callbacks, loggers and strategies of the training
    framework are records holding the arguments the code passes to their
    constructors; the constructor of the run object itself, which
    validates what it is given, is a parameter. *)

From Stdlib Require Import String Ascii List ZArith Bool Lia PrimFloat.
Import ListNotations.
Open Scope string_scope.

#[local] Set Warnings "-inexact-float".

(** ** The fragments of Python the module relies on *)

Module Py.

(** [needle in hay] on [str]: [needle] occurs at some offset of [hay]. *)
Fixpoint str_in (needle hay : string) : bool :=
  if String.prefix needle hay then true
  else match hay with
       | EmptyString => false
       | String _ hay' => str_in needle hay'
       end.

(** [s.endswith(suffix)] *)
Fixpoint endswith (s suffix : string) : bool :=
  if String.eqb s suffix then true
  else match s with
       | EmptyString => false
       | String _ s' => endswith s' suffix
       end.

(** [s * n] *)
Fixpoint str_mul (s : string) (n : nat) : string :=
  match n with
  | O => EmptyString
  | S n' => s ++ str_mul s n'
  end.

(** [l[i]], negative indices counting from the end; [None] stands for
    [IndexError]. *)
Definition getitem {A : Type} (l : list A) (i : Z) : option A :=
  let n := Z.of_nat (List.length l) in
  let j := if (i <? 0)%Z then (i + n)%Z else i in
  if ((0 <=? j) && (j <? n))%Z then nth_error l (Z.to_nat j) else None.

(** [os.path.join(a, b)] of [posixpath]. *)
Definition path_join (a b : string) : string :=
  if String.prefix "/" b then b
  else if String.eqb a "" || endswith a "/" then a ++ b
  else a ++ "/" ++ b.

(** [not s] for a [str]. *)
Definition str_falsy (s : string) : bool := String.eqb s "".

End Py.

(** ** Devices, configuration and framework objects *)

Module torch.

(** [torch.device]: a kind and an optional ordinal. *)
Record device : Type := mk_device { type : string; index : option Z }.

(** [torch.device("cpu")] *)
Definition device_of_string (kind : string) : device :=
  {| type := kind; index := None |}.

End torch.

(** [config.experiment.model_class] is a class object; only its
    [__name__] is read. *)
Record PyClass : Type := { __name__ : string }.

Record Experiment : Type := { model_class : PyClass }.

Record EarlyStoppingConfig : Type := { min_delta : float; patience : Z }.

(** The fields of the [Namespace] that [TrainerHolder] reads. *)
Record Namespace : Type := {
  experiment : Experiment;
  trade_off : bool;
  num_epochs : Z;
  batch_size : Z;
  early_stopping : EarlyStoppingConfig
}.

(** What [training_strategy] hands to the trainer: a name of the strategy
    registry, or a [SingleDeviceStrategy] object. *)
Inductive Strategy : Type :=
| StrategyName (name : string)
| SingleDeviceStrategy (device : torch.device) (accelerator : string).

Record LearningRateMonitor : Type := { logging_interval : string }.

Record Timer : Type := { timer_verbose : bool }.

Record StochasticWeightAveragingCallback : Type := { swa_lrs : float }.

Record TrainerHolder : Type := {
  config : Namespace;
  device : torch.device;
  logs_dir : string;
  metric_to_monitor : string;
  is_distributed : bool;
  checkpoints_dir : string;
  lr_monitor : LearningRateMonitor;
  timer : Timer;
  monitor_set : string;
  StochasticWeightAveraging : StochasticWeightAveragingCallback
}.

(** ** Metric names *)

Definition regression_metric_name : string := "rmse".

Definition classification_metric_name (trade_off : bool) : list string :=
  if trade_off then ["auroc"; "prc"; "mean"] else ["auroc"; "prc"].

(** ** The constructor *)

Definition option_bind {A B : Type} (o : option A) (k : A -> option B) : option B :=
  match o with
  | Some a => k a
  | None => None
  end.

(** [TrainerHolder.__init__]; [None] stands for an exception. *)
Definition __init__ (config : Namespace) (is_distributed : bool)
    (device : torch.device) (checkpoints_dir logs_dir monitor_set : string)
    : option TrainerHolder :=
  option_bind
    (if Py.str_in "Classification" (__name__ (model_class (experiment config))) then
       if trade_off config then
         option_bind (Py.getitem (classification_metric_name (trade_off config)) (-1))
           (fun m => Some (monitor_set ++ "_" ++ m))
       else
         option_bind (Py.getitem (classification_metric_name (trade_off config)) 0)
           (fun m => Some (monitor_set ++ "_" ++ m))
     else Some ("val_" ++ regression_metric_name))
    (fun target =>
       Some {| config := config;
               device := device;
               logs_dir := Py.path_join logs_dir "metrics";
               metric_to_monitor := target;
               is_distributed := is_distributed;
               checkpoints_dir := checkpoints_dir;
               lr_monitor := {| logging_interval := "step" |};
               timer := {| timer_verbose := true |};
               monitor_set := monitor_set;
               StochasticWeightAveraging := {| swa_lrs := 0.01%float |} |}).

(** ** Strategy selection *)

(** [training_strategy]; the chain of tests has no final [else], so a
    device kind outside the three tested ones falls off the end of the
    function and the call evaluates to Python's [None]. *)
Definition training_strategy (self : TrainerHolder) : option Strategy :=
  if String.eqb (torch.type (device self)) "cuda" then
    if is_distributed self then
      Some (StrategyName "ddp_find_unused_parameters_false")
    else
      Some (SingleDeviceStrategy (device self) "cuda")
  else if String.eqb (torch.type (device self)) "cpu" then
    Some (SingleDeviceStrategy (device self) "cpu")
  else if String.eqb (torch.type (device self)) "mps" then
    Some (SingleDeviceStrategy (torch.device_of_string "cpu") "cpu")
  else None.

(** ** Effects: the module logger and the random generator

    [logger.info] appends to the records of the module-level logger and
    [random.choice] consumes one draw of the generator.  A computation
    threads the world and may raise ([None]). *)

Record World : Type := {
  entropy : nat -> nat;      (* the generator's stream of draws *)
  drawn : nat;               (* how many draws were consumed *)
  records : list string      (* what the "ConAN" logger received *)
}.

Definition M (A : Type) : Type := World -> option A * World.

Definition ret {A : Type} (a : A) : M A := fun w => (Some a, w).

Definition bind {A B : Type} (m : M A) (k : A -> M B) : M B :=
  fun w => match m w with
           | (Some a, w') => k a w'
           | (None, w') => (None, w')
           end.

Notation "x <- m ;; k" := (bind m (fun x => k))
  (at level 61, m at next level, right associativity).
Notation "m ;; k" := (bind m (fun _ => k))
  (at level 61, right associativity).

(** The value a computation returns from a given world. *)
Definition value {A : Type} (m : M A) (w : World) : option A := fst (m w).

Definition logger_info (msg : string) : M unit :=
  fun w => (Some tt, {| entropy := entropy w; drawn := drawn w;
                        records := records w ++ [msg] |}).

(** [random.choice(seq)] on a [str]; an empty sequence raises. *)
Definition random_choice (seq : string) : M ascii :=
  fun w => match String.get (entropy w (drawn w) mod String.length seq) seq with
           | Some c => (Some c, {| entropy := entropy w; drawn := S (drawn w);
                                   records := records w |})
           | None => (None, w)
           end.

Definition ascii_lowercase : string := "abcdefghijklmnopqrstuvwxyz".

(** ["".join(random.choice(string.ascii_lowercase) for _ in range(n))] *)
Fixpoint random_lowercase (n : nat) : M string :=
  match n with
  | O => ret EmptyString
  | S n' => c <- random_choice ascii_lowercase ;;
            rest <- random_lowercase n' ;;
            ret (String c rest)
  end.

(** ** Policy objects *)

Module EarlyStopping.
Record t : Type := {
  monitor : string;
  min_delta : float;
  patience : Z;
  mode : string;
  verbose : bool;
  check_finite : bool
}.
End EarlyStopping.

Module ModelCheckpoint.
Record t : Type := {
  dirpath : string;
  filename : string;
  verbose : bool;
  monitor : string;
  mode : string;
  save_last : bool
}.
End ModelCheckpoint.

Record CSVLogger : Type := { save_dir : string; name : string }.

Inductive Callback : Type :=
| EarlyStoppingCallback (c : EarlyStopping.t)
| ModelCheckpointCallback (c : ModelCheckpoint.t)
| LearningRateMonitorCallback (c : LearningRateMonitor)
| TimerCallback (c : Timer).

(** The keyword arguments [create_trainer] gives to [pl.Trainer]; an
    entry [None] is Python's [None]. *)
Record TrainerArgs : Type := {
  max_epochs : Z;
  logger : list CSVLogger;
  log_every_n_steps : Z;
  callbacks : list (option Callback);
  strategy : option Strategy;
  gradient_clip_val : float;
  default_root_dir : string;
  num_sanity_val_steps : Z
}.

Definition early_stopping_callback (self : TrainerHolder) (use_loss : bool)
    : EarlyStopping.t :=
  let '(obj_monitor, mode) :=
    if use_loss then ("val_loss", "min")
    else (metric_to_monitor self, "max") in
  {| EarlyStopping.monitor := obj_monitor;
     EarlyStopping.min_delta := min_delta (early_stopping (config self));
     EarlyStopping.patience := patience (early_stopping (config self));
     EarlyStopping.mode := mode;
     EarlyStopping.verbose := true;
     EarlyStopping.check_finite := true |}.

(** [checkpoint_callback]; a task that is neither of the two tested
    strings reaches the end of the function, which evaluates to Python's
    [None]. *)
Definition checkpoint_callback (self : TrainerHolder) (run_name task : string)
    : M (option ModelCheckpoint.t) :=
  let dirpath := Py.path_join (checkpoints_dir self) run_name in
  logger_info (Py.str_mul "*" 100) ;;
  logger_info ("📦 Saving checkpoint @ " ++ dirpath) ;;
  logger_info (Py.str_mul "*" 100) ;;
  if String.eqb task "regression" then
    ret (Some {| ModelCheckpoint.dirpath := dirpath;
                 ModelCheckpoint.filename := "{epoch}-{step}-{val_rmse:.2f}";
                 ModelCheckpoint.verbose := true;
                 ModelCheckpoint.monitor := metric_to_monitor self;
                 ModelCheckpoint.mode := "min";
                 ModelCheckpoint.save_last := true |})
  else if String.eqb task "classification" then
    if Py.str_in "mean" (metric_to_monitor self) then
      if String.eqb (monitor_set self) "train" then
        ret (Some {| ModelCheckpoint.dirpath := dirpath;
                     ModelCheckpoint.filename := "{epoch}-{step}-{train_mean:.2f}";
                     ModelCheckpoint.verbose := true;
                     ModelCheckpoint.monitor := metric_to_monitor self;
                     ModelCheckpoint.mode := "max";
                     ModelCheckpoint.save_last := true |})
      else
        ret (Some {| ModelCheckpoint.dirpath := dirpath;
                     ModelCheckpoint.filename := "{epoch}-{step}-{val_mean:.2f}";
                     ModelCheckpoint.verbose := true;
                     ModelCheckpoint.monitor := metric_to_monitor self;
                     ModelCheckpoint.mode := "max";
                     ModelCheckpoint.save_last := true |})
    else
      if String.eqb (monitor_set self) "train" then
        ret (Some {| ModelCheckpoint.dirpath := dirpath;
                     ModelCheckpoint.filename := "{epoch}-{step}-{train_auroc:.2f}";
                     ModelCheckpoint.verbose := true;
                     ModelCheckpoint.monitor := metric_to_monitor self;
                     ModelCheckpoint.mode := "max";
                     ModelCheckpoint.save_last := true |})
      else
        ret (Some {| ModelCheckpoint.dirpath := dirpath;
                     ModelCheckpoint.filename := "{epoch}-{step}-{val_auroc:.2f}";
                     ModelCheckpoint.verbose := true;
                     ModelCheckpoint.monitor := metric_to_monitor self;
                     ModelCheckpoint.mode := "max";
                     ModelCheckpoint.save_last := true |})
  else ret None.

(** [create_logger]; [experiment_name] is [None] or a string, and both
    [None] and the empty string are falsy. *)
Definition create_logger (self : TrainerHolder) (experiment_name : option string)
    : M (list CSVLogger) :=
  experiment_name <-
    (match experiment_name with
     | Some n => if Py.str_falsy n then random_lowercase 15 else ret n
     | None => random_lowercase 15
     end) ;;
  let loggers := [ {| save_dir := logs_dir self; name := experiment_name |} ] in
  logger_info (Py.str_mul "*" 100) ;;
  logger_info ("📈 Monitoring all metrics @ "
               ++ Py.path_join (logs_dir self) experiment_name
               ++ " | Saving ckpt by " ++ metric_to_monitor self) ;;
  logger_info (Py.str_mul "*" 100) ;;
  ret loggers.

(** ** Run assembly

    [pl.Trainer] belongs to the training framework.  Its constructor
    checks the arguments it is given and may raise, so it is taken as a
    parameter: a computation from the keyword arguments to the run
    object.  [create_trainer] ends in that call, and whatever the call
    returns or raises is what [create_trainer] returns or raises. *)

Section RunAssembly.

Variable Run : Type.
Variable pl_Trainer : TrainerArgs -> M Run.

Definition create_trainer (self : TrainerHolder) (run_name : string)
    (use_distributed_sampler : bool) : M Run :=
  let task :=
    if Py.str_in "Classification" (__name__ (model_class (experiment (config self))))
    then "classification" else "regression" in
  cb_early <- ret (early_stopping_callback self true) ;;
  cb_checkpoint <- checkpoint_callback self run_name task ;;
  let callbacks :=
    [ Some (EarlyStoppingCallback cb_early);
      option_map ModelCheckpointCallback cb_checkpoint;
      Some (LearningRateMonitorCallback (lr_monitor self));
      Some (TimerCallback (timer self)) ] in
  loggers <- create_logger self (Some run_name) ;;
  pl_Trainer {| max_epochs := num_epochs (config self);
                logger := loggers;
                log_every_n_steps := batch_size (config self);
                callbacks := callbacks;
                strategy := training_strategy self;
                gradient_clip_val := 1%float;
                default_root_dir := checkpoints_dir self;
                num_sanity_val_steps := (-1)%Z |}.

End RunAssembly.

(** ** Metric computation

    The numeric work is done by [torchmetrics] and [sklearn]; their
    functions are taken as parameters.  Scores are binary64 numbers and a
    library call that raises yields [None]. *)

Section Metrics.

Variables Tensor NDArray : Type.

(** [t.long()] and [t.cpu().detach().numpy()] *)
Variable long : Tensor -> Tensor.
Variable to_numpy : Tensor -> NDArray.

(** [torchmetrics.functional.mean_squared_error(preds, target, squared)] *)
Variable mean_squared_error : Tensor -> Tensor -> bool -> option float.

(** [sklearn.metrics.roc_auc_score(y_true, y_score)],
    [precision_recall_curve(y_true, probas_pred)] and [auc(x, y)] *)
Variable roc_auc_score : NDArray -> NDArray -> option float.
Variable precision_recall_curve :
  NDArray -> NDArray -> option (NDArray * NDArray * NDArray).
Variable auc : NDArray -> NDArray -> option float.

Definition regression_metric (predicted expected : Tensor) (squared : bool)
    : option float :=
  mean_squared_error predicted expected squared.

Definition classification_metric (predicted expected : Tensor) (trade_off : bool)
    : option (list float) :=
  let expected := long expected in
  option_bind (roc_auc_score (to_numpy expected) (to_numpy predicted))
    (fun auc_score =>
  option_bind (precision_recall_curve (to_numpy expected) (to_numpy predicted))
    (fun '(precision, recall, thresholds) =>
  option_bind (auc recall precision)
    (fun prc_score =>
  if trade_off then
    Some [auc_score; prc_score; ((auc_score + prc_score) / 2)%float]
  else
    Some [auc_score; prc_score]))).

End Metrics.

(** ** The library's mean squared error, as the specification words it *)

(** Modelled from the spec: the sum of squared differences that
    [torchmetrics.functional.mean_squared_error] accumulates; the
    function is not under src/.  Inputs are flat sequences of binary64
    numbers. *)
Fixpoint sum_squared_error (preds target : list float) : float :=
  match preds, target with
  | p :: preds', t :: target' =>
      ((p - t) * (p - t) + sum_squared_error preds' target')%float
  | _, _ => 0%float
  end.

(** Modelled from the spec: the number of observations as a binary64
    number, for the mean of [torchmetrics.functional.mean_squared_error],
    which is not under src/. *)
Fixpoint num_obs (n : nat) : float :=
  match n with
  | O => 0%float
  | S n' => (num_obs n' + 1)%float
  end.

(** Modelled from the spec: [torchmetrics.functional.mean_squared_error],
    a library function that is not under src/.  The specification says
    it computes the mean squared error, fails when the input shapes
    mismatch, and gives the raw MSE when [squared] is true and the RMSE,
    its square root, when [squared] is false. *)
Definition spec_mean_squared_error (preds target : list float) (squared : bool)
    : option float :=
  if Nat.eqb (List.length preds) (List.length target) then
    let mse := (sum_squared_error preds target / num_obs (List.length preds))%float in
    Some (if squared then mse else PrimFloat.sqrt mse)
  else None.

(** ** The decision table as the specification words it

    Its last row sends every device kind other than GPU and CPU to a
    single-device strategy on CPU. *)

Definition spec_strategy_table (device : torch.device) (distributed : bool)
    : option Strategy :=
  if String.eqb (torch.type device) "cuda" then
    if distributed then Some (StrategyName "ddp_find_unused_parameters_false")
    else Some (SingleDeviceStrategy device "cuda")
  else if String.eqb (torch.type device) "cpu" then
    Some (SingleDeviceStrategy device "cpu")
  else Some (SingleDeviceStrategy (torch.device_of_string "cpu") "cpu").

(** The four filename templates of the classification branches. *)
Definition classification_templates : list string :=
  [ "{epoch}-{step}-{train_mean:.2f}"; "{epoch}-{step}-{val_mean:.2f}";
    "{epoch}-{step}-{train_auroc:.2f}"; "{epoch}-{step}-{val_auroc:.2f}" ].

(** ** Sample inputs *)

Definition sample_config (class_name : string) (trade_off : bool) : Namespace :=
  {| experiment := {| model_class := {| __name__ := class_name |} |};
     trade_off := trade_off;
     num_epochs := 100;
     batch_size := 32;
     early_stopping := {| min_delta := 0.5%float; patience := 10 |} |}.

Definition sample_world : World :=
  {| entropy := fun i => 7 * i + 3; drawn := 0; records := [] |}.

(** A stand-in for [pl.Trainer] in examples: it refuses a missing
    strategy and a negative epoch count below -1, and otherwise keeps
    the arguments as the run object. *)
Definition sample_pl_Trainer (args : TrainerArgs) : M TrainerArgs :=
  fun w => match strategy args with
           | None => (None, w)
           | Some _ => if (max_epochs args <? -1)%Z then (None, w)
                       else (Some args, w)
           end.

(** The mode of the checkpoint policy in the callbacks argument, where
    [create_trainer] puts it: second in the list. *)
Definition checkpoint_mode (t : TrainerArgs) : option string :=
  match nth_error (callbacks t) 1 with
  | Some (Some (ModelCheckpointCallback c)) => Some (ModelCheckpoint.mode c)
  | _ => None
  end.

(** * Properties *)

(** ** Substring test *)

Lemma prefix_iff_append (n h : string) :
  String.prefix n h = true <-> exists post, h = n ++ post.
Proof.
  revert h; induction n as [|a n IH]; intros h.
  - destruct h; simpl; split; eauto.
  - destruct h as [|b h]; simpl.
    + split; [discriminate | intros [post H]; discriminate].
    + destruct (ascii_dec a b) as [->|Hab].
      * rewrite IH. split; intros [post H]; exists post.
        -- now rewrite H.
        -- now inversion H.
      * split; [discriminate | intros [post H]; congruence].
Qed.

Lemma str_in_unfold (n h : string) :
  Py.str_in n h
  = if String.prefix n h then true
    else match h with
         | EmptyString => false
         | String _ h' => Py.str_in n h'
         end.
Proof. destruct h; reflexivity. Qed.

(** [Py.str_in] decides occurrence: [needle in hay] holds exactly when
    [hay] splits as a prefix, [needle] and a suffix. *)
Lemma str_in_iff_occurs (n h : string) :
  Py.str_in n h = true <-> exists pre post, h = pre ++ n ++ post.
Proof.
  induction h as [|c h IH]; rewrite str_in_unfold.
  - destruct (String.prefix n "") eqn:E.
    + split; [intros _ | reflexivity].
      apply prefix_iff_append in E. destruct E as [post E].
      exists "", post. exact E.
    + split; [discriminate | intros (pre & post & H)].
      destruct pre; [|discriminate]. simpl in H.
      assert (String.prefix n "" = true) by (apply prefix_iff_append; eauto).
      congruence.
  - destruct (String.prefix n (String c h)) eqn:E.
    + split; [intros _ | reflexivity].
      apply prefix_iff_append in E. destruct E as [post E].
      exists "", post. exact E.
    + rewrite IH. split.
      * intros (pre & post & H). exists (String c pre), post. simpl. now rewrite H.
      * intros (pre & post & H). destruct pre as [|c' pre].
        -- simpl in H.
           assert (String.prefix n (String c h) = true)
             by (apply prefix_iff_append; eauto).
           congruence.
        -- inversion H. eauto.
Qed.

(** ** Metric names *)

(** C5: [classification_metric_name] returns the ordered list
    auroc, prc, mean when [trade_off] is true and auroc, prc otherwise; so
    its length is 3 or 2 and its last element is the mean label exactly
    when [trade_off] is true. *)
Theorem classification_metric_name_shape (trade_off : bool) :
  classification_metric_name trade_off
    = (if trade_off then ["auroc"; "prc"; "mean"] else ["auroc"; "prc"])
  /\ List.length (classification_metric_name trade_off)
     = (if trade_off then 3 else 2)
  /\ (Py.getitem (classification_metric_name trade_off) (-1) = Some "mean"
      <-> trade_off = true).
Proof.
  destruct trade_off; cbn; repeat split; try reflexivity; discriminate.
Qed.

(** ** Monitor target *)

(** The constructor never raises, and the target it stores is decided by
    the class name, the trade-off flag and the split. *)
Lemma init_target (cfg : Namespace) (distributed : bool)
    (dev : torch.device) (ckpt_dir log_dir split : string) :
  exists self,
    __init__ cfg distributed dev ckpt_dir log_dir split = Some self
    /\ metric_to_monitor self
       = (if Py.str_in "Classification" (__name__ (model_class (experiment cfg)))
          then if trade_off cfg then split ++ "_mean"
               else split ++ "_auroc"
          else "val_rmse")
    /\ config self = cfg
    /\ device self = dev
    /\ is_distributed self = distributed
    /\ checkpoints_dir self = ckpt_dir
    /\ monitor_set self = split.
Proof.
  unfold __init__.
  destruct (Py.str_in "Classification" _); [destruct (trade_off cfg) eqn:E|];
    cbn; eexists; repeat split.
Qed.

(** C2: the constructor resolves the monitor target from the class name,
    the trade-off flag and the split: split_mean for a classification
    model with trade-off, split_auroc for one without, and val_rmse for a
    regression model whatever the split. *)
Theorem monitor_target_resolution (cfg : Namespace) (distributed : bool)
    (dev : torch.device) (ckpt_dir log_dir split : string) :
  exists self,
    __init__ cfg distributed dev ckpt_dir log_dir split = Some self
    /\ (Py.str_in "Classification" (__name__ (model_class (experiment cfg))) = true ->
        trade_off cfg = true ->
        metric_to_monitor self = split ++ "_mean"
        /\ (split = "val" -> metric_to_monitor self = "val_mean"))
    /\ (Py.str_in "Classification" (__name__ (model_class (experiment cfg))) = true ->
        trade_off cfg = false ->
        metric_to_monitor self = split ++ "_auroc"
        /\ (split = "val" -> metric_to_monitor self = "val_auroc"))
    /\ (Py.str_in "Classification" (__name__ (model_class (experiment cfg))) = false ->
        metric_to_monitor self = "val_rmse").
Proof.
  destruct (init_target cfg distributed dev ckpt_dir log_dir split)
    as (self & Hinit & Htarget & _).
  exists self. split; [exact Hinit|].
  repeat split; intros; subst; rewrite Htarget;
    repeat match goal with H : _ = _ |- _ => rewrite H end; reflexivity.
Qed.

Lemma monitor_target_resolution_witness :
  exists self,
    __init__ (sample_config "ConAN_Classification" true) false
             (torch.device_of_string "cpu") "ckpt" "logs" "val" = Some self
    /\ metric_to_monitor self = "val_mean".
Proof.
  destruct (monitor_target_resolution (sample_config "ConAN_Classification" true)
              false (torch.device_of_string "cpu") "ckpt" "logs" "val")
    as (self & Hinit & Hmean & _).
  exists self. split; [exact Hinit|].
  apply Hmean; reflexivity.
Defined.

(** ** Strategy selection *)

(** C1, as the code has it: the three device kinds the function tests
    follow the table; the row that forces a single-device strategy on CPU
    is the row of the kind mps. *)
Theorem training_strategy_table (self : TrainerHolder) :
  (torch.type (device self) = "cuda" -> is_distributed self = true ->
   training_strategy self = Some (StrategyName "ddp_find_unused_parameters_false"))
  /\ (torch.type (device self) = "cuda" -> is_distributed self = false ->
      training_strategy self = Some (SingleDeviceStrategy (device self) "cuda"))
  /\ (torch.type (device self) = "cpu" ->
      training_strategy self = Some (SingleDeviceStrategy (device self) "cpu"))
  /\ (torch.type (device self) = "mps" ->
      training_strategy self
      = Some (SingleDeviceStrategy (torch.device_of_string "cpu") "cpu")).
Proof.
  unfold training_strategy.
  repeat split; intros Hkind; try intros Hdist; rewrite Hkind; cbn;
    try rewrite Hdist; reflexivity.
Qed.

Lemma training_strategy_table_witness :
  exists self,
    __init__ (sample_config "ConAN" false) true
             {| torch.type := "mps"; torch.index := None |} "ckpt" "logs" "val"
      = Some self
    /\ training_strategy self
       = Some (SingleDeviceStrategy (torch.device_of_string "cpu") "cpu").
Proof.
  eexists. split; [reflexivity|].
  apply (training_strategy_table _); reflexivity.
Defined.

(** C1, as the specification words it, fails: on a device of kind xpu
    (neither GPU, CPU nor mps) the function returns no strategy at all,
    where the table's last row promises single-device on CPU. *)
Lemma training_strategy_other_accelerator :
  exists self,
    __init__ (sample_config "ConAN" false) true
             {| torch.type := "xpu"; torch.index := Some 0%Z |} "ckpt" "logs" "val"
      = Some self
    /\ training_strategy self = None
    /\ spec_strategy_table (device self) (is_distributed self)
       = Some (SingleDeviceStrategy (torch.device_of_string "cpu") "cpu")
    /\ training_strategy self
       <> spec_strategy_table (device self) (is_distributed self).
Proof.
  eexists. split; [reflexivity|]. cbn. repeat split. discriminate.
Qed.

(** What the function does outside the three kinds it tests. *)
Lemma training_strategy_untested_kind (self : TrainerHolder) :
  torch.type (device self) <> "cuda" ->
  torch.type (device self) <> "cpu" ->
  torch.type (device self) <> "mps" ->
  training_strategy self = None.
Proof.
  intros Hcuda Hcpu Hmps. unfold training_strategy.
  apply String.eqb_neq in Hcuda, Hcpu, Hmps.
  now rewrite Hcuda, Hcpu, Hmps.
Qed.

(** ** Early stopping *)

(** C8: the early-stopping policy watches val_loss downwards when
    [use_loss] is set and the resolved monitor target upwards otherwise;
    in both modes min-delta and patience are the configuration's and the
    check for non-finite values is on. *)
Theorem early_stopping_policy (self : TrainerHolder) (use_loss : bool) :
  EarlyStopping.monitor (early_stopping_callback self use_loss)
    = (if use_loss then "val_loss" else metric_to_monitor self)
  /\ EarlyStopping.mode (early_stopping_callback self use_loss)
     = (if use_loss then "min" else "max")
  /\ EarlyStopping.min_delta (early_stopping_callback self use_loss)
     = min_delta (early_stopping (config self))
  /\ EarlyStopping.patience (early_stopping_callback self use_loss)
     = patience (early_stopping (config self))
  /\ EarlyStopping.check_finite (early_stopping_callback self use_loss) = true.
Proof.
  destruct use_loss; repeat split.
Qed.

(** ** Checkpoint policy *)

Ltac run_checkpoint :=
  cbv [value checkpoint_callback bind logger_info ret fst];
  repeat match goal with
         | |- context [String.eqb ?a ?b] =>
             first [ progress (change (String.eqb a b) with true); cbv iota
                   | progress (change (String.eqb a b) with false); cbv iota
                   | destruct (String.eqb a b) ]
         | |- context [Py.str_in ?a ?b] => destruct (Py.str_in a b)
         end.

(** The value [checkpoint_callback] returns does not depend on the world
    it runs in, and it never raises. *)
Lemma checkpoint_callback_value (self : TrainerHolder) (run_name task : string)
    (w w' : World) :
  value (checkpoint_callback self run_name task) w
  = value (checkpoint_callback self run_name task) w'
  /\ exists r w1, checkpoint_callback self run_name task w = (Some r, w1).
Proof.
  run_checkpoint; split; eauto.
Qed.

(** C3: for the task regression the policy minimises the resolved
    monitor target under the val_rmse template; for the task
    classification it maximises it under one of four templates, chosen by
    whether the target contains mean and whether the split is train; a
    classification configuration without trade-off, monitored on train,
    gets the train_auroc template. *)
Theorem checkpoint_callback_templates (self : TrainerHolder) (run_name : string)
    (w : World) :
  (exists p,
     value (checkpoint_callback self run_name "regression") w = Some (Some p)
     /\ ModelCheckpoint.mode p = "min"
     /\ ModelCheckpoint.monitor p = metric_to_monitor self
     /\ ModelCheckpoint.filename p = "{epoch}-{step}-{val_rmse:.2f}")
  /\ (exists p,
        value (checkpoint_callback self run_name "classification") w = Some (Some p)
        /\ ModelCheckpoint.mode p = "max"
        /\ ModelCheckpoint.monitor p = metric_to_monitor self
        /\ In (ModelCheckpoint.filename p) classification_templates
        /\ ModelCheckpoint.filename p
           = (if Py.str_in "mean" (metric_to_monitor self) then
                if String.eqb (monitor_set self) "train"
                then "{epoch}-{step}-{train_mean:.2f}"
                else "{epoch}-{step}-{val_mean:.2f}"
              else
                if String.eqb (monitor_set self) "train"
                then "{epoch}-{step}-{train_auroc:.2f}"
                else "{epoch}-{step}-{val_auroc:.2f}"))
  /\ (forall cfg distributed dev ckpt_dir log_dir,
        __init__ cfg distributed dev ckpt_dir log_dir "train" = Some self ->
        Py.str_in "Classification" (__name__ (model_class (experiment cfg))) = true ->
        trade_off cfg = false ->
        exists p,
          value (checkpoint_callback self run_name "classification") w = Some (Some p)
          /\ ModelCheckpoint.mode p = "max"
          /\ ModelCheckpoint.filename p = "{epoch}-{step}-{train_auroc:.2f}"
          /\ Py.str_in "train_auroc" (ModelCheckpoint.filename p) = true).
Proof.
  split; [|split].
  - run_checkpoint. eexists; repeat split.
  - run_checkpoint; eexists; (split; [reflexivity|]); cbn; intuition.
  - intros cfg distributed dev ckpt_dir log_dir Hinit Hclass Htrade.
    destruct (init_target cfg distributed dev ckpt_dir log_dir "train")
      as (self' & Hinit' & Htarget & _ & _ & _ & _ & Hsplit).
    rewrite Hinit in Hinit'. injection Hinit' as <-.
    rewrite Hclass, Htrade in Htarget.
    cbv [value checkpoint_callback bind logger_info ret fst].
    rewrite Htarget, Hsplit. cbn. eexists; repeat split.
Qed.

Lemma checkpoint_callback_templates_witness :
  exists self p,
    __init__ (sample_config "ConAN_Classification" false) false
             (torch.device_of_string "cpu") "ckpt" "logs" "train" = Some self
    /\ value (checkpoint_callback self "run1" "classification") sample_world
       = Some (Some p)
    /\ ModelCheckpoint.mode p = "max"
    /\ ModelCheckpoint.filename p = "{epoch}-{step}-{train_auroc:.2f}".
Proof.
  eexists.
  destruct (proj2 (proj2 (checkpoint_callback_templates _ "run1" sample_world))
              (sample_config "ConAN_Classification" false) false
              (torch.device_of_string "cpu") "ckpt" "logs"
              eq_refl eq_refl eq_refl)
    as (p & Hv & Hmode & Hfile & _).
  exists p. repeat split; assumption.
Defined.

(** C4: whatever branch produced it, a policy returned by
    [checkpoint_callback] saves the last state as well and writes under
    the checkpoints directory joined with the run name; both tasks do
    produce one. *)
Theorem checkpoint_callback_save_last_and_dirpath (self : TrainerHolder)
    (run_name task : string) (w : World) :
  (task = "regression" \/ task = "classification" ->
   exists p, value (checkpoint_callback self run_name task) w = Some (Some p))
  /\ (forall p,
        value (checkpoint_callback self run_name task) w = Some (Some p) ->
        ModelCheckpoint.save_last p = true
        /\ ModelCheckpoint.dirpath p = Py.path_join (checkpoints_dir self) run_name).
Proof.
  split.
  - intros [-> | ->]; run_checkpoint; eauto.
  - intros p. run_checkpoint; intros H; inversion H; split; reflexivity.
Qed.

Lemma checkpoint_callback_save_last_and_dirpath_witness :
  exists self p,
    __init__ (sample_config "ConAN" false) false
             (torch.device_of_string "cpu") "ckpt" "logs" "val" = Some self
    /\ value (checkpoint_callback self "run1" "regression") sample_world
       = Some (Some p)
    /\ ModelCheckpoint.save_last p = true
    /\ ModelCheckpoint.dirpath p = "ckpt/run1".
Proof.
  destruct (init_target (sample_config "ConAN" false) false
              (torch.device_of_string "cpu") "ckpt" "logs" "val")
    as (self & Hinit & _ & _ & _ & _ & Hdir & _).
  destruct (checkpoint_callback_save_last_and_dirpath self "run1" "regression"
              sample_world) as [Hreturns Hpolicy].
  destruct (Hreturns (or_introl eq_refl)) as [p Hp].
  destruct (Hpolicy p Hp) as [Hlast Hpath].
  exists self, p. repeat split; try assumption.
  rewrite Hpath, Hdir. reflexivity.
Defined.

(** ** Run assembly *)

Lemma get_in_range (s : string) (n : nat) :
  n < String.length s -> exists c, String.get n s = Some c.
Proof.
  revert n; induction s as [|a s IH]; intros n Hn; simpl in Hn; [lia|].
  destruct n as [|n]; simpl; [eauto|]. apply IH. lia.
Qed.

(** A draw from the lowercase alphabet always succeeds. *)
Lemma random_choice_lowercase (w : World) :
  exists c w', random_choice ascii_lowercase w = (Some c, w').
Proof.
  unfold random_choice.
  destruct (get_in_range ascii_lowercase
              (entropy w (drawn w) mod String.length ascii_lowercase)) as [c Hc].
  - apply Nat.mod_upper_bound. discriminate.
  - rewrite Hc. eauto.
Qed.

Lemma random_lowercase_total (n : nat) (w : World) :
  exists s w', random_lowercase n w = (Some s, w').
Proof.
  revert w; induction n as [|n IH]; intros w; simpl.
  - unfold ret. eauto.
  - unfold bind. destruct (random_choice_lowercase w) as (c & w1 & ->).
    destruct (IH w1) as (s & w2 & ->). unfold ret. eauto.
Qed.

Lemma create_logger_total (self : TrainerHolder) (experiment_name : option string)
    (w : World) :
  exists loggers w', create_logger self experiment_name w = (Some loggers, w').
Proof.
  unfold create_logger, bind at 1.
  assert (exists n w1,
             match experiment_name with
             | Some n => if Py.str_falsy n then random_lowercase 15 else ret n
             | None => random_lowercase 15
             end w = (Some n, w1)) as (n & w1 & ->).
  { destruct experiment_name as [n|]; [destruct (Py.str_falsy n)|];
      try apply random_lowercase_total. unfold ret. eauto. }
  cbv [bind logger_info ret]. eauto.
Qed.

(** [create_trainer] runs [checkpoint_callback] for the inferred task and
    then [create_logger], neither of which raises, and ends in the call
    of [pl.Trainer] on their results: its outcome is that call's. *)
Lemma create_trainer_run (Run : Type) (pl_Trainer : TrainerArgs -> M Run)
    (self : TrainerHolder) (run_name : string)
    (use_distributed_sampler : bool) (w : World) :
  exists cp w1 loggers w2,
    checkpoint_callback self run_name
      (if Py.str_in "Classification"
            (__name__ (model_class (experiment (config self))))
       then "classification" else "regression") w = (Some cp, w1)
    /\ create_logger self (Some run_name) w1 = (Some loggers, w2)
    /\ create_trainer Run pl_Trainer self run_name use_distributed_sampler w
       = pl_Trainer
            {| max_epochs := num_epochs (config self);
               logger := loggers;
               log_every_n_steps := batch_size (config self);
               callbacks :=
                 [ Some (EarlyStoppingCallback (early_stopping_callback self true));
                   option_map ModelCheckpointCallback cp;
                   Some (LearningRateMonitorCallback (lr_monitor self));
                   Some (TimerCallback (timer self)) ];
               strategy := training_strategy self;
               gradient_clip_val := 1%float;
               default_root_dir := checkpoints_dir self;
               num_sanity_val_steps := (-1)%Z |} w2.
Proof.
  unfold create_trainer.
  set (task := if Py.str_in _ _ then _ else _).
  unfold bind at 1. unfold ret at 1. unfold bind at 1.
  destruct (checkpoint_callback_value self run_name task w w) as [_ (cp & w1 & Hcp)].
  rewrite Hcp. unfold bind at 1.
  destruct (create_logger_total self (Some run_name) w1) as (loggers & w2 & Hlog).
  rewrite Hlog. exists cp, w1, loggers, w2.
  split; [reflexivity|]. split; [exact Hlog | reflexivity].
Qed.

(** C9: [use_distributed_sampler] is a dead parameter.  From any state of
    the manager and of the world, and whatever the constructor of the
    run object does with what it is given, both values of the flag give
    the same outcome: the same run object or the same exception, and the
    same world left behind.  For either value the constructor is called
    on the same arguments in the same world. *)
Theorem create_trainer_ignores_distributed_sampler (Run : Type)
    (pl_Trainer : TrainerArgs -> M Run) (self : TrainerHolder)
    (run_name : string) (w : World) :
  create_trainer Run pl_Trainer self run_name true w
  = create_trainer Run pl_Trainer self run_name false w
  /\ exists args w1,
       forall use_distributed_sampler : bool,
         create_trainer Run pl_Trainer self run_name use_distributed_sampler w
         = pl_Trainer args w1.
Proof.
  destruct (create_trainer_run Run pl_Trainer self run_name true w)
    as (cp & w1 & loggers & w2 & _ & _ & Hrun).
  split; [reflexivity|].
  eexists. exists w2. intros use_distributed_sampler. exact Hrun.
Qed.

(** The mode of the policy for each of the two tasks. *)
Lemma checkpoint_callback_mode (self : TrainerHolder) (run_name : string)
    (w : World) :
  (exists p,
     value (checkpoint_callback self run_name "regression") w = Some (Some p)
     /\ ModelCheckpoint.mode p = "min")
  /\ (exists p,
        value (checkpoint_callback self run_name "classification") w = Some (Some p)
        /\ ModelCheckpoint.mode p = "max").
Proof.
  split; run_checkpoint; eexists; split; reflexivity.
Qed.

Lemma not_occurs_str_in (n h : string) :
  ~ (exists pre post, h = pre ++ n ++ post) -> Py.str_in n h = false.
Proof.
  intros Hnot. destruct (Py.str_in n h) eqn:E; [|reflexivity].
  apply str_in_iff_occurs in E. contradiction.
Qed.

(** C10: the task kind is inferred by a case-sensitive substring test on
    the class name, at construction and in [create_trainer] alike.  A
    name in which Classification occurs gives the classification target,
    and [create_trainer] passes [pl.Trainer] the classification
    checkpoint policy (mode max) as its second callback; every other
    name gives val_rmse and the regression policy (mode min).  This is
    said of the arguments of the constructor call, whose outcome, a run
    object or an exception, is that of [create_trainer]. *)
Theorem task_kind_is_substring_test (Run : Type)
    (pl_Trainer : TrainerArgs -> M Run) (cfg : Namespace) (distributed : bool)
    (dev : torch.device) (ckpt_dir log_dir split run_name : string)
    (use_distributed_sampler : bool) (w : World) :
  exists self args w1,
    __init__ cfg distributed dev ckpt_dir log_dir split = Some self
    /\ create_trainer Run pl_Trainer self run_name use_distributed_sampler w
       = pl_Trainer args w1
    /\ ((exists pre post,
           __name__ (model_class (experiment cfg)) = pre ++ "Classification" ++ post) ->
        metric_to_monitor self
          = split ++ (if trade_off cfg then "_mean" else "_auroc")
        /\ nth_error (callbacks args) 1
           = option_map (option_map ModelCheckpointCallback)
               (value (checkpoint_callback self run_name "classification") w)
        /\ checkpoint_mode args = Some "max")
    /\ (~ (exists pre post,
             __name__ (model_class (experiment cfg)) = pre ++ "Classification" ++ post) ->
        metric_to_monitor self = "val_rmse"
        /\ nth_error (callbacks args) 1
           = option_map (option_map ModelCheckpointCallback)
               (value (checkpoint_callback self run_name "regression") w)
        /\ checkpoint_mode args = Some "min").
Proof.
  destruct (init_target cfg distributed dev ckpt_dir log_dir split)
    as (self & Hinit & Htarget & Hcfg & _).
  destruct (create_trainer_run Run pl_Trainer self run_name use_distributed_sampler w)
    as (cp & w1 & loggers & w2 & Hcp & _ & Hrun).
  destruct (checkpoint_callback_mode self run_name w)
    as [(pr & Hpr & Hmin) (pc & Hpc & Hmax)].
  apply (f_equal fst) in Hcp. cbn [fst] in Hcp. rewrite Hcfg in Hcp.
  unfold value in *.
  exists self. eexists. exists w2.
  split; [exact Hinit|]. split; [exact Hrun|].
  unfold checkpoint_mode. cbn [callbacks nth_error]. split.
  - intros Hocc. apply str_in_iff_occurs in Hocc.
    rewrite Hocc in Htarget, Hcp. rewrite Hcp in Hpc |- *. injection Hpc as ->.
    repeat split; [|now rewrite <- Hmax].
    rewrite Htarget. now destruct (trade_off cfg).
  - intros Hnot. apply not_occurs_str_in in Hnot.
    rewrite Hnot in Htarget, Hcp. rewrite Hcp in Hpr |- *. injection Hpr as ->.
    repeat split; [exact Htarget|now rewrite <- Hmin].
Qed.

Lemma task_kind_is_substring_test_witness :
  exists self args w1,
    __init__ (sample_config "gnn_classification_head" true) false
             (torch.device_of_string "cpu") "ckpt" "logs" "val" = Some self
    /\ create_trainer TrainerArgs sample_pl_Trainer self "run1" true sample_world
       = sample_pl_Trainer args w1
    /\ metric_to_monitor self = "val_rmse"
    /\ checkpoint_mode args = Some "min".
Proof.
  destruct (task_kind_is_substring_test TrainerArgs sample_pl_Trainer
              (sample_config "gnn_classification_head" true) false
              (torch.device_of_string "cpu") "ckpt" "logs" "val" "run1" true
              sample_world)
    as (self & args & w1 & Hinit & Hrun & _ & Hregression).
  destruct Hregression as (Htarget & _ & Hmode).
  - intros Hocc. apply str_in_iff_occurs in Hocc. discriminate Hocc.
  - exists self, args, w1. repeat split; assumption.
Defined.

(** ** Metric computation *)

(** C6: with the library's mean squared error as the specification
    words it, on inputs of matching shape [regression_metric] with
    [squared] false returns the square root of what it returns with
    [squared] true, and the latter is the mean of the squared
    differences: the RMSE and the raw MSE. *)
Theorem regression_metric_rmse_is_sqrt_of_mse (predicted expected : list float) :
  List.length predicted = List.length expected ->
  exists mse,
    regression_metric (list float) spec_mean_squared_error predicted expected true
    = Some mse
    /\ regression_metric (list float) spec_mean_squared_error predicted expected false
       = Some (PrimFloat.sqrt mse)
    /\ mse = (sum_squared_error predicted expected
              / num_obs (List.length predicted))%float.
Proof.
  intros Hshape. unfold regression_metric, spec_mean_squared_error.
  rewrite Hshape, Nat.eqb_refl. eexists. repeat split.
Qed.

Lemma regression_metric_rmse_is_sqrt_of_mse_witness :
  regression_metric (list float) spec_mean_squared_error
    [3%float; 3%float] [1%float; 1%float] true = Some 4%float
  /\ regression_metric (list float) spec_mean_squared_error
       [3%float; 3%float] [1%float; 1%float] false = Some 2%float.
Proof.
  destruct (regression_metric_rmse_is_sqrt_of_mse
              [3%float; 3%float] [1%float; 1%float] eq_refl)
    as (mse & Hmse & Hrmse & Hmean).
  subst mse. split; [exact Hmse | exact Hrmse].
Defined.

(** C7: when the library calls succeed, [classification_metric] with
    trade-off returns the AUROC, the precision-recall AUC and, third,
    their sum halved (in binary64 arithmetic); without trade-off it
    returns the first two only. *)
Theorem classification_metric_mean (Tensor NDArray : Type)
    (long : Tensor -> Tensor) (to_numpy : Tensor -> NDArray)
    (roc_auc_score : NDArray -> NDArray -> option float)
    (precision_recall_curve : NDArray -> NDArray -> option (NDArray * NDArray * NDArray))
    (auc : NDArray -> NDArray -> option float)
    (predicted expected : Tensor)
    (auc_score prc_score : float) (precision recall thresholds : NDArray) :
  roc_auc_score (to_numpy (long expected)) (to_numpy predicted) = Some auc_score ->
  precision_recall_curve (to_numpy (long expected)) (to_numpy predicted)
    = Some (precision, recall, thresholds) ->
  auc recall precision = Some prc_score ->
  classification_metric Tensor NDArray long to_numpy roc_auc_score
      precision_recall_curve auc predicted expected true
    = Some [auc_score; prc_score; ((auc_score + prc_score) / 2)%float]
  /\ classification_metric Tensor NDArray long to_numpy roc_auc_score
       precision_recall_curve auc predicted expected false
     = Some [auc_score; prc_score].
Proof.
  intros Hroc Hcurve Hauc. unfold classification_metric.
  rewrite Hroc, Hcurve. cbn. rewrite Hauc. cbn. split; reflexivity.
Qed.

Lemma classification_metric_mean_witness :
  classification_metric (list float) (list float) (fun t => t) (fun t => t)
      (fun _ _ => Some 0.75%float)
      (fun y_true probas => Some (probas, y_true, probas))
      (fun _ _ => Some 0.5%float)
      [0.875%float; 0.25%float] [1%float; 0%float] true
    = Some [0.75%float; 0.5%float; 0.625%float]
  /\ classification_metric (list float) (list float) (fun t => t) (fun t => t)
       (fun _ _ => Some 0.75%float)
       (fun y_true probas => Some (probas, y_true, probas))
       (fun _ _ => Some 0.5%float)
       [0.875%float; 0.25%float] [1%float; 0%float] false
     = Some [0.75%float; 0.5%float].
Proof.
  exact (classification_metric_mean (list float) (list float)
           (fun t => t) (fun t => t)
           (fun _ _ => Some 0.75%float)
           (fun y_true probas => Some (probas, y_true, probas))
           (fun _ _ => Some 0.5%float)
           [0.875%float; 0.25%float] [1%float; 0%float]
           0.75%float 0.5%float
           [0.875%float; 0.25%float] [1%float; 0%float] [0.875%float; 0.25%float]
           eq_refl eq_refl eq_refl).
Defined.

(** * Further properties of the module *)

(** ** Strings and paths *)

Lemma string_app_assoc (a b c : string) : (a ++ b) ++ c = a ++ (b ++ c).
Proof. induction a as [|x a IH]; simpl; [reflexivity | now rewrite IH]. Qed.

Lemma prefix_app (a b : string) : String.prefix a (a ++ b) = true.
Proof. apply prefix_iff_append. now exists b. Qed.

Lemma str_in_app_l (n a b : string) :
  Py.str_in n a = true -> Py.str_in n (a ++ b) = true.
Proof.
  intros H. apply str_in_iff_occurs in H. destruct H as (pre & post & ->).
  apply str_in_iff_occurs. exists pre, (post ++ b).
  now rewrite !string_app_assoc.
Qed.

Lemma str_in_app_r (n a : string) : Py.str_in n (a ++ n) = true.
Proof.
  apply str_in_iff_occurs. exists a, "".
  f_equal. induction n as [|x n IH]; simpl; [reflexivity | now rewrite <- IH].
Qed.

Lemma endswith_unfold (s suffix : string) :
  Py.endswith s suffix
  = if String.eqb s suffix then true
    else match s with
         | EmptyString => false
         | String _ s' => Py.endswith s' suffix
         end.
Proof. destruct s; reflexivity. Qed.

Lemma endswith_app (a b : string) : Py.endswith (a ++ b) b = true.
Proof.
  induction a as [|x a IH]; rewrite endswith_unfold.
  - change ("" ++ b) with b. now rewrite String.eqb_refl.
  - change (String x a ++ b) with (String x (a ++ b)).
    destruct (String.eqb (String x (a ++ b)) b); [reflexivity | exact IH].
Qed.

(** ** The random experiment name *)

(** [random_lowercase n] consumes exactly [n] draws, leaves the logger
    alone, and returns [n] characters, each of them a lowercase letter. *)
Lemma random_lowercase_spec (n : nat) (w : World) :
  exists s,
    random_lowercase n w
      = (Some s, {| entropy := entropy w; drawn := drawn w + n;
                    records := records w |})
    /\ String.length s = n
    /\ (forall i c, String.get i s = Some c ->
                    exists j, String.get j ascii_lowercase = Some c).
Proof.
  revert w; induction n as [|n IH]; intros w.
  - exists "". cbn [random_lowercase ret]. rewrite Nat.add_0_r.
    destruct w; repeat split. intros i c H. destruct i; discriminate.
  - cbn [random_lowercase]. unfold bind at 1. unfold random_choice.
    destruct (get_in_range ascii_lowercase
                (entropy w (drawn w) mod String.length ascii_lowercase))
      as [c Hc]; [apply Nat.mod_upper_bound; discriminate|].
    rewrite Hc. unfold bind at 1.
    destruct (IH {| entropy := entropy w; drawn := S (drawn w);
                    records := records w |}) as (s & -> & Hlen & Hall).
    cbn [entropy drawn records ret].
    exists (String c s). split; [|split].
    + unfold ret. replace (S (drawn w) + n) with (drawn w + S n) by lia.
      reflexivity.
    + simpl. now rewrite Hlen.
    + intros [|i] c' H; simpl in H.
      * injection H as <-. eauto.
      * eauto.
Qed.

(** X1: given a non-empty experiment name, [create_logger] returns one
    CSV logger under the manager's logs directory carrying that very
    name, consumes no random draw, and sends the logger three records:
    a rule, the announcement of the log path and monitor target, a rule. *)
Theorem create_logger_named (self : TrainerHolder) (experiment_name : string)
    (w : World) :
  experiment_name <> "" ->
  create_logger self (Some experiment_name) w
  = (Some [ {| save_dir := logs_dir self; name := experiment_name |} ],
     {| entropy := entropy w;
        drawn := drawn w;
        records := records w
                   ++ [ Py.str_mul "*" 100;
                        "📈 Monitoring all metrics @ "
                        ++ Py.path_join (logs_dir self) experiment_name
                        ++ " | Saving ckpt by " ++ metric_to_monitor self;
                        Py.str_mul "*" 100 ] |}).
Proof.
  intros Hname. apply String.eqb_neq in Hname.
  unfold create_logger, Py.str_falsy. rewrite Hname.
  cbv [bind logger_info ret entropy drawn records].
  now rewrite <- !app_assoc.
Qed.

Lemma create_logger_named_witness :
  fst (create_logger
         {| config := sample_config "ConAN" false;
            device := torch.device_of_string "cpu";
            logs_dir := "logs/metrics";
            metric_to_monitor := "val_rmse";
            is_distributed := false;
            checkpoints_dir := "ckpt";
            lr_monitor := {| logging_interval := "step" |};
            timer := {| timer_verbose := true |};
            monitor_set := "val";
            StochasticWeightAveraging := {| swa_lrs := 0.01%float |} |}
         (Some "run1") sample_world)
  = Some [ {| save_dir := "logs/metrics"; name := "run1" |} ].
Proof.
  rewrite (create_logger_named _ "run1" sample_world); [reflexivity|discriminate].
Defined.



(** ** What the factories do to the world *)

(** [checkpoint_callback] never raises and never draws; whatever the
    task, it leaves three records with the logger. *)
Lemma checkpoint_callback_run (self : TrainerHolder) (run_name task : string)
    (w : World) :
  exists r,
    checkpoint_callback self run_name task w
    = (Some r,
       {| entropy := entropy w;
          drawn := drawn w;
          records := records w
                     ++ [ Py.str_mul "*" 100;
                          "📦 Saving checkpoint @ "
                          ++ Py.path_join (checkpoints_dir self) run_name;
                          Py.str_mul "*" 100 ] |}).
Proof.
  cbv [checkpoint_callback bind logger_info ret entropy drawn records].
  rewrite <- !app_assoc. cbn [app].
  repeat match goal with
         | |- context [if ?b then _ else _] => destruct b
         end; eauto.
Qed.

(** [create_logger] never raises; a non-empty name is kept and costs no
    draw, a missing or empty one is replaced by 15 drawn letters. *)
Lemma create_logger_run (self : TrainerHolder) (experiment_name : option string)
    (w : World) :
  exists chosen,
    create_logger self experiment_name w
    = (Some [ {| save_dir := logs_dir self; name := chosen |} ],
       {| entropy := entropy w;
          drawn := drawn w + match experiment_name with
                             | Some n => if String.eqb n "" then 15 else 0
                             | None => 15
                             end;
          records := records w
                     ++ [ Py.str_mul "*" 100;
                          "📈 Monitoring all metrics @ "
                          ++ Py.path_join (logs_dir self) chosen
                          ++ " | Saving ckpt by " ++ metric_to_monitor self;
                          Py.str_mul "*" 100 ] |})
    /\ (forall n, experiment_name = Some n -> n <> "" -> chosen = n)
    /\ (experiment_name = None \/ experiment_name = Some "" ->
        String.length chosen = 15).
Proof.
  destruct (random_lowercase_spec 15 w) as (s & Hrun & Hlen & _).
  unfold create_logger, Py.str_falsy, bind at 1.
  destruct experiment_name as [n|]; [destruct (String.eqb_spec n "") as [->|Hn]|].
  - exists s. rewrite Hrun.
    cbv [bind logger_info ret entropy drawn records]. rewrite <- !app_assoc.
    repeat split; [intros n [= <-] H; congruence | intros _; exact Hlen].
  - exists n. cbv [bind logger_info ret entropy drawn records].
    rewrite <- !app_assoc, Nat.add_0_r.
    repeat split; [now intros n' [= <-] _ | intros [H | [= H]]; congruence].
  - exists s. rewrite Hrun.
    cbv [bind logger_info ret entropy drawn records]. rewrite <- !app_assoc.
    repeat split; [intros n H; discriminate | intros _; exact Hlen].
Qed.

(** X3: [checkpoint_callback] hands back a policy exactly for the tasks
    regression and classification; for any other task string it returns
    [None] without raising.  In every case it consumes no random draw and
    sends the logger three records announcing the checkpoint directory. *)
Theorem checkpoint_callback_unknown_task (self : TrainerHolder)
    (run_name task : string) (w : World) :
  (value (checkpoint_callback self run_name task) w = Some None
   <-> task <> "regression" /\ task <> "classification")
  /\ snd (checkpoint_callback self run_name task w)
     = {| entropy := entropy w;
          drawn := drawn w;
          records := records w
                     ++ [ Py.str_mul "*" 100;
                          "📦 Saving checkpoint @ "
                          ++ Py.path_join (checkpoints_dir self) run_name;
                          Py.str_mul "*" 100 ] |}.
Proof.
  split.
  - cbv [value checkpoint_callback bind logger_info ret fst].
    destruct (String.eqb_spec task "regression") as [->|Hr].
    + split; [discriminate | intros [H _]; congruence].
    + destruct (String.eqb_spec task "classification") as [->|Hc].
      * destruct (Py.str_in "mean" (metric_to_monitor self)),
          (String.eqb (monitor_set self) "train");
          (split; [discriminate | intros [_ H]; congruence]).
      * split; [intros _; split; assumption | reflexivity].
  - destruct (checkpoint_callback_run self run_name task w) as (r & ->).
    reflexivity.
Qed.

(** X4: [training_strategy] returns no strategy ([None]) exactly when
    the device kind is none of cuda, cpu and mps. *)
Theorem training_strategy_none_iff (self : TrainerHolder) :
  training_strategy self = None
  <-> torch.type (device self) <> "cuda"
      /\ torch.type (device self) <> "cpu"
      /\ torch.type (device self) <> "mps".
Proof.
  unfold training_strategy.
  destruct (String.eqb_spec (torch.type (device self)) "cuda") as [Hcuda|Hcuda].
  - destruct (is_distributed self);
      (split; [discriminate | intros (H & _); congruence]).
  - destruct (String.eqb_spec (torch.type (device self)) "cpu") as [Hcpu|Hcpu].
    + split; [discriminate | intros (_ & H & _); congruence].
    + destruct (String.eqb_spec (torch.type (device self)) "mps") as [Hmps|Hmps].
      * split; [discriminate | intros (_ & _ & H); congruence].
      * split; [intros _; repeat split; assumption | reflexivity].
Qed.

(** For the two tasks it knows, [checkpoint_callback] returns a policy
    on the resolved monitor target. *)
Lemma checkpoint_callback_known_task (self : TrainerHolder)
    (run_name task : string) (w : World) :
  task = "regression" \/ task = "classification" ->
  exists p,
    value (checkpoint_callback self run_name task) w = Some (Some p)
    /\ ModelCheckpoint.monitor p = metric_to_monitor self.
Proof.
  intros [-> | ->]; run_checkpoint; eexists; split; reflexivity.
Qed.

(** Where a returned policy writes. *)
Lemma checkpoint_callback_dirpath (self : TrainerHolder)
    (run_name task : string) (w : World) (p : ModelCheckpoint.t) :
  value (checkpoint_callback self run_name task) w = Some (Some p) ->
  ModelCheckpoint.dirpath p = Py.path_join (checkpoints_dir self) run_name.
Proof.
  run_checkpoint; intros H; inversion H; reflexivity.
Qed.

(** X5: the arguments [create_trainer] passes to [pl.Trainer], whose
    outcome, a run object or an exception, is that of [create_trainer].
    The callbacks argument always holds four callbacks, none of them
    [None], in the order early stopping, checkpointing, learning-rate
    monitor, timer.  The early stopping is the loss-based one (val_loss,
    minimised) whatever the monitor target is, while the checkpoint
    policy watches the monitor target; gradient clipping is 1.0, the
    sanity validation count is -1, the root directory is the checkpoints
    directory, and epochs, log frequency and strategy come from the
    configuration and [training_strategy]. *)
Theorem create_trainer_assembly (Run : Type) (pl_Trainer : TrainerArgs -> M Run)
    (self : TrainerHolder) (run_name : string)
    (use_distributed_sampler : bool) (w : World) :
  exists args w1 es cp,
    create_trainer Run pl_Trainer self run_name use_distributed_sampler w
    = pl_Trainer args w1
    /\ callbacks args
       = [ Some (EarlyStoppingCallback es);
           Some (ModelCheckpointCallback cp);
           Some (LearningRateMonitorCallback (lr_monitor self));
           Some (TimerCallback (timer self)) ]
    /\ EarlyStopping.monitor es = "val_loss"
    /\ EarlyStopping.mode es = "min"
    /\ ModelCheckpoint.monitor cp = metric_to_monitor self
    /\ max_epochs args = num_epochs (config self)
    /\ log_every_n_steps args = batch_size (config self)
    /\ strategy args = training_strategy self
    /\ gradient_clip_val args = 1%float
    /\ default_root_dir args = checkpoints_dir self
    /\ num_sanity_val_steps args = (-1)%Z.
Proof.
  destruct (create_trainer_run Run pl_Trainer self run_name use_distributed_sampler w)
    as (cp & w1 & loggers & w2 & Hcp & _ & Hrun).
  destruct (checkpoint_callback_known_task self run_name
              (if Py.str_in "Classification"
                    (__name__ (model_class (experiment (config self))))
               then "classification" else "regression") w)
    as (p & Hp & Hmonitor).
  { destruct (Py.str_in _ _); [right | left]; reflexivity. }
  unfold value in Hp. rewrite Hcp in Hp. injection Hp as ->.
  eexists. exists w2. do 2 eexists. split; [exact Hrun|].
  repeat split. exact Hmonitor.
Qed.

(** X6: what [create_trainer] has done by the time it calls
    [pl.Trainer]: in the world the constructor is called in, the logger
    has received six more records (a rule, the checkpoint directory, a
    rule, then a rule, the log path with the monitor target, a rule); a
    non-empty run name names the CSV logger passed to the constructor
    and has cost no random draw, an empty one has cost 15 draws and the
    logger passed has a 15-letter name instead.  The outcome of the
    constructor, a run object or an exception, is that of
    [create_trainer]. *)
Theorem create_trainer_effects (Run : Type) (pl_Trainer : TrainerArgs -> M Run)
    (self : TrainerHolder) (run_name : string)
    (use_distributed_sampler : bool) (w : World) :
  exists args w1 chosen,
    create_trainer Run pl_Trainer self run_name use_distributed_sampler w
    = pl_Trainer args w1
    /\ logger args = [ {| save_dir := logs_dir self; name := chosen |} ]
    /\ (run_name <> "" -> chosen = run_name)
    /\ (run_name = "" -> String.length chosen = 15)
    /\ entropy w1 = entropy w
    /\ drawn w1 = drawn w + (if String.eqb run_name "" then 15 else 0)
    /\ records w1
       = (records w
          ++ [ Py.str_mul "*" 100;
               ("📦 Saving checkpoint @ "
                ++ Py.path_join (checkpoints_dir self) run_name)%string;
               Py.str_mul "*" 100;
               Py.str_mul "*" 100;
               ("📈 Monitoring all metrics @ "
                ++ Py.path_join (logs_dir self) chosen
                ++ " | Saving ckpt by " ++ metric_to_monitor self)%string;
               Py.str_mul "*" 100 ])%list.
Proof.
  destruct (create_trainer_run Run pl_Trainer self run_name use_distributed_sampler w)
    as (cp & w1 & loggers & w2 & Hcp & Hlog & Hrun).
  destruct (checkpoint_callback_run self run_name
              (if Py.str_in "Classification"
                    (__name__ (model_class (experiment (config self))))
               then "classification" else "regression") w)
    as (r & Hr).
  rewrite Hr in Hcp. pose proof (f_equal snd Hcp) as Hw1.
  cbn [snd] in Hw1. subst w1.
  destruct (create_logger_run self (Some run_name)
              {| entropy := entropy w; drawn := drawn w;
                 records := records w
                            ++ [ Py.str_mul "*" 100;
                                 "📦 Saving checkpoint @ "
                                 ++ Py.path_join (checkpoints_dir self) run_name;
                                 Py.str_mul "*" 100 ] |})
    as (chosen & Hchosen & Hkept & Hgenerated).
  rewrite Hchosen in Hlog.
  pose proof (f_equal fst Hlog) as Hloggers. cbn [fst] in Hloggers.
  pose proof (f_equal snd Hlog) as Hw2. cbn [snd] in Hw2.
  injection Hloggers as <-. subst w2.
  eexists. eexists. exists chosen. split; [exact Hrun|].
  cbn [logger entropy drawn records]. rewrite <- app_assoc.
  repeat split.
  - intros Hname. now apply (Hkept run_name).
  - intros ->. apply Hgenerated. now right.
Qed.

(** ** Where checkpoints and logs go *)

(** X7: a run name that is an absolute path replaces the checkpoints
    directory: every policy [checkpoint_callback] returns then writes to
    the run name itself. *)
Theorem checkpoint_dirpath_absolute_run_name (self : TrainerHolder)
    (run_name task : string) (w : World) (p : ModelCheckpoint.t) :
  String.prefix "/" run_name = true ->
  value (checkpoint_callback self run_name task) w = Some (Some p) ->
  ModelCheckpoint.dirpath p = run_name.
Proof.
  intros Habs Hp. rewrite (checkpoint_callback_dirpath _ _ _ _ _ Hp).
  unfold Py.path_join. now rewrite Habs.
Qed.

Lemma checkpoint_dirpath_absolute_run_name_witness :
  exists self p,
    __init__ (sample_config "ConAN" false) false
             (torch.device_of_string "cpu") "ckpt" "logs" "val" = Some self
    /\ value (checkpoint_callback self "/tmp/run1" "regression") sample_world
       = Some (Some p)
    /\ ModelCheckpoint.dirpath p = "/tmp/run1".
Proof.
  eexists. eexists. split; [reflexivity|]. split; [reflexivity|].
  eapply (checkpoint_dirpath_absolute_run_name _ "/tmp/run1" "regression"
            sample_world); reflexivity.
Defined.

(** X9: whatever logs directory the constructor is given, the manager's
    own logs directory lies under it and ends in metrics. *)
Theorem init_logs_dir_metrics (cfg : Namespace) (distributed : bool)
    (dev : torch.device) (ckpt_dir log_dir split : string) (self : TrainerHolder) :
  __init__ cfg distributed dev ckpt_dir log_dir split = Some self ->
  String.prefix log_dir (logs_dir self) = true
  /\ Py.endswith (logs_dir self) "metrics" = true.
Proof.
  intros Hinit.
  assert (logs_dir self = Py.path_join log_dir "metrics") as ->.
  { unfold __init__ in Hinit.
    destruct (Py.str_in "Classification" _); [destruct (trade_off cfg)|];
      cbn in Hinit; injection Hinit as <-; reflexivity. }
  unfold Py.path_join. change (String.prefix "/" "metrics") with false. cbv iota.
  destruct (_ || _).
  - split; [apply prefix_app | apply endswith_app].
  - split; [apply prefix_app|].
    rewrite <- string_app_assoc. apply endswith_app.
Qed.

Lemma init_logs_dir_metrics_witness :
  exists self,
    __init__ (sample_config "ConAN" false) false
             (torch.device_of_string "cpu") "ckpt" "out/logs" "val" = Some self
    /\ String.prefix "out/logs" (logs_dir self) = true
    /\ Py.endswith (logs_dir self) "metrics" = true.
Proof.
  eexists. split; [reflexivity|].
  eapply (init_logs_dir_metrics (sample_config "ConAN" false) false
            (torch.device_of_string "cpu") "ckpt" "out/logs" "val").
  reflexivity.
Defined.

(** ** Checkpoint file names against the monitored metric *)

(** Appending _auroc cannot create an occurrence of mean. *)
Lemma no_mean_before_auroc (s : string) :
  Py.str_in "mean" s = false -> Py.str_in "mean" (s ++ "_auroc") = false.
Proof.
  induction s as [|c s IH]; intros H; [reflexivity|].
  rewrite str_in_unfold in H.
  destruct (String.prefix "mean" (String c s)) eqn:P; [discriminate|].
  change (String c s ++ "_auroc") with (String c (s ++ "_auroc")).
  rewrite str_in_unfold, (IH H).
  destruct (String.prefix "mean" (String c (s ++ "_auroc"))) eqn:Q; [|reflexivity].
  exfalso. apply prefix_iff_append in Q. destruct Q as [post Q].
  destruct s as [|c1 [|c2 [|c3 s]]]; simpl in Q; try discriminate Q.
  injection Q as -> -> -> -> _.
  pose proof (prefix_app "mean" s) as P'.
  change ("mean" ++ s) with (String "m" (String "e" (String "a" (String "n" s)))) in P'.
  congruence.
Qed.

(** X10: for a manager built by the constructor on the split train or
    val, the checkpoint policy of the task [create_trainer] infers names
    its files after the very metric it monitors. *)
Theorem checkpoint_filename_names_monitor (cfg : Namespace) (distributed : bool)
    (dev : torch.device) (ckpt_dir log_dir split : string)
    (self : TrainerHolder) (run_name : string) (w : World) :
  __init__ cfg distributed dev ckpt_dir log_dir split = Some self ->
  split = "train" \/ split = "val" ->
  exists p,
    value (checkpoint_callback self run_name
             (if Py.str_in "Classification" (__name__ (model_class (experiment cfg)))
              then "classification" else "regression")) w = Some (Some p)
    /\ ModelCheckpoint.filename p
       = "{epoch}-{step}-{" ++ ModelCheckpoint.monitor p ++ ":.2f}".
Proof.
  intros Hinit Hsplit.
  destruct (init_target cfg distributed dev ckpt_dir log_dir split)
    as (self' & Hinit' & Htarget & _ & _ & _ & _ & Hset).
  rewrite Hinit in Hinit'. injection Hinit' as <-.
  cbv [value checkpoint_callback bind logger_info ret fst].
  rewrite Htarget, Hset.
  destruct (Py.str_in "Classification" _); [destruct (trade_off cfg)|];
    destruct Hsplit as [-> | ->]; cbn; eexists; split; reflexivity.
Qed.

Lemma checkpoint_filename_names_monitor_witness :
  exists self p,
    __init__ (sample_config "ConAN_Classification" true) false
             (torch.device_of_string "cpu") "ckpt" "logs" "train" = Some self
    /\ value (checkpoint_callback self "run1" "classification") sample_world
       = Some (Some p)
    /\ ModelCheckpoint.filename p = "{epoch}-{step}-{train_mean:.2f}"
    /\ ModelCheckpoint.monitor p = "train_mean".
Proof.
  destruct (init_target (sample_config "ConAN_Classification" true) false
              (torch.device_of_string "cpu") "ckpt" "logs" "train")
    as (self & Hinit & Htarget & _).
  destruct (checkpoint_filename_names_monitor
              (sample_config "ConAN_Classification" true) false
              (torch.device_of_string "cpu") "ckpt" "logs" "train"
              self "run1" sample_world Hinit (or_introl eq_refl))
    as (p & Hp & Hfile).
  destruct (checkpoint_callback_known_task self "run1" "classification"
              sample_world (or_intror eq_refl)) as (p' & Hp' & Hmonitor).
  change (value (checkpoint_callback self "run1" "classification") sample_world
          = Some (Some p)) in Hp.
  rewrite Hp in Hp'. injection Hp' as <-.
  rewrite Htarget in Hmonitor. cbn in Hmonitor.
  exists self, p. repeat split; try assumption.
  rewrite Hfile, Hmonitor. reflexivity.
Defined.

(** X11: on any split other than train, a classification manager still
    monitors the metric of its own split but names the checkpoint files
    after the val metric: split_mean under the val_mean template with
    trade-off, split_auroc under the val_auroc template without (for a
    split whose name does not contain mean). *)
Theorem checkpoint_filename_other_split (cfg : Namespace) (distributed : bool)
    (dev : torch.device) (ckpt_dir log_dir split : string)
    (self : TrainerHolder) (run_name : string) (w : World) :
  __init__ cfg distributed dev ckpt_dir log_dir split = Some self ->
  Py.str_in "Classification" (__name__ (model_class (experiment cfg))) = true ->
  split <> "train" ->
  exists p,
    value (checkpoint_callback self run_name "classification") w = Some (Some p)
    /\ (trade_off cfg = true ->
        ModelCheckpoint.monitor p = split ++ "_mean"
        /\ ModelCheckpoint.filename p = "{epoch}-{step}-{val_mean:.2f}")
    /\ (trade_off cfg = false -> Py.str_in "mean" split = false ->
        ModelCheckpoint.monitor p = split ++ "_auroc"
        /\ ModelCheckpoint.filename p = "{epoch}-{step}-{val_auroc:.2f}").
Proof.
  intros Hinit Hclass Hsplit. apply String.eqb_neq in Hsplit.
  destruct (init_target cfg distributed dev ckpt_dir log_dir split)
    as (self' & Hinit' & Htarget & _ & _ & _ & _ & Hset).
  rewrite Hinit in Hinit'. injection Hinit' as <-.
  rewrite Hclass in Htarget.
  cbv [value checkpoint_callback bind logger_info ret fst].
  change (String.eqb "classification" "regression") with false.
  change (String.eqb "classification" "classification") with true. cbv iota.
  rewrite Htarget, Hset, Hsplit.
  destruct (trade_off cfg).
  - assert (Py.str_in "mean" (split ++ "_mean") = true) as ->.
    { change "_mean" with ("_" ++ "mean"). rewrite <- string_app_assoc.
      apply str_in_app_r. }
    eexists. split; [reflexivity|]. split; [intros _; split; reflexivity|].
    discriminate.
  - destruct (Py.str_in "mean" split) eqn:Hmean.
    + rewrite (str_in_app_l "mean" split "_auroc" Hmean).
      eexists. split; [reflexivity|]. split; discriminate.
    + rewrite (no_mean_before_auroc split Hmean).
      eexists. split; [reflexivity|]. split; [discriminate|].
      intros _ _. split; reflexivity.
Qed.

Lemma checkpoint_filename_other_split_witness :
  exists self p,
    __init__ (sample_config "ConAN_Classification" false) false
             (torch.device_of_string "cpu") "ckpt" "logs" "test" = Some self
    /\ value (checkpoint_callback self "run1" "classification") sample_world
       = Some (Some p)
    /\ ModelCheckpoint.monitor p = "test_auroc"
    /\ ModelCheckpoint.filename p = "{epoch}-{step}-{val_auroc:.2f}".
Proof.
  destruct (init_target (sample_config "ConAN_Classification" false) false
              (torch.device_of_string "cpu") "ckpt" "logs" "test")
    as (self & Hinit & _).
  destruct (checkpoint_filename_other_split
              (sample_config "ConAN_Classification" false) false
              (torch.device_of_string "cpu") "ckpt" "logs" "test"
              self "run1" sample_world Hinit eq_refl)
    as (p & Hp & _ & Hauroc); [discriminate|].
  destruct (Hauroc eq_refl eq_refl) as [Hmonitor Hfile].
  exists self, p. repeat split; assumption.
Defined.

(** X12: when the split's name itself contains mean, a classification
    manager without trade-off monitors split_auroc, yet the test for the
    blended metric succeeds on the split's name and the files are named
    by the val_mean template. *)
Theorem checkpoint_filename_split_containing_mean (cfg : Namespace)
    (distributed : bool) (dev : torch.device) (ckpt_dir log_dir split : string)
    (self : TrainerHolder) (run_name : string) (w : World) :
  __init__ cfg distributed dev ckpt_dir log_dir split = Some self ->
  Py.str_in "Classification" (__name__ (model_class (experiment cfg))) = true ->
  trade_off cfg = false ->
  Py.str_in "mean" split = true ->
  exists p,
    value (checkpoint_callback self run_name "classification") w = Some (Some p)
    /\ ModelCheckpoint.monitor p = split ++ "_auroc"
    /\ ModelCheckpoint.filename p = "{epoch}-{step}-{val_mean:.2f}".
Proof.
  intros Hinit Hclass Htrade Hmean.
  destruct (init_target cfg distributed dev ckpt_dir log_dir split)
    as (self' & Hinit' & Htarget & _ & _ & _ & _ & Hset).
  rewrite Hinit in Hinit'. injection Hinit' as <-.
  rewrite Hclass, Htrade in Htarget.
  assert (String.eqb split "train" = false) as Hsplit.
  { destruct (String.eqb_spec split "train") as [->|]; [discriminate Hmean|reflexivity]. }
  cbv [value checkpoint_callback bind logger_info ret fst].
  change (String.eqb "classification" "regression") with false.
  change (String.eqb "classification" "classification") with true. cbv iota.
  rewrite Htarget, Hset, Hsplit, (str_in_app_l "mean" split "_auroc" Hmean).
  eexists. repeat split.
Qed.

Lemma checkpoint_filename_split_containing_mean_witness :
  exists self p,
    __init__ (sample_config "ConAN_Classification" false) false
             (torch.device_of_string "cpu") "ckpt" "logs" "meanfold" = Some self
    /\ value (checkpoint_callback self "run1" "classification") sample_world
       = Some (Some p)
    /\ ModelCheckpoint.monitor p = "meanfold_auroc"
    /\ ModelCheckpoint.filename p = "{epoch}-{step}-{val_mean:.2f}".
Proof.
  destruct (init_target (sample_config "ConAN_Classification" false) false
              (torch.device_of_string "cpu") "ckpt" "logs" "meanfold")
    as (self & Hinit & _).
  destruct (checkpoint_filename_split_containing_mean
              (sample_config "ConAN_Classification" false) false
              (torch.device_of_string "cpu") "ckpt" "logs" "meanfold"
              self "run1" sample_world Hinit eq_refl eq_refl eq_refl)
    as (p & Hp & Hmonitor & Hfile).
  exists self, p. repeat split; assumption.
Defined.

(** ** Early stopping against checkpointing *)

(** X13: for a regression manager, the metric-based early stopping
    ([use_loss] false) and the regression checkpoint policy watch the
    same metric, val_rmse, in opposite directions: early stopping in mode
    max, checkpointing in mode min. *)
Theorem regression_early_stopping_against_checkpoint (cfg : Namespace)
    (distributed : bool) (dev : torch.device) (ckpt_dir log_dir split : string)
    (self : TrainerHolder) (run_name : string) (w : World) :
  __init__ cfg distributed dev ckpt_dir log_dir split = Some self ->
  Py.str_in "Classification" (__name__ (model_class (experiment cfg))) = false ->
  exists p,
    value (checkpoint_callback self run_name "regression") w = Some (Some p)
    /\ EarlyStopping.monitor (early_stopping_callback self false) = "val_rmse"
    /\ ModelCheckpoint.monitor p = "val_rmse"
    /\ EarlyStopping.mode (early_stopping_callback self false) = "max"
    /\ ModelCheckpoint.mode p = "min".
Proof.
  intros Hinit Hregression.
  destruct (init_target cfg distributed dev ckpt_dir log_dir split)
    as (self' & Hinit' & Htarget & _).
  rewrite Hinit in Hinit'. injection Hinit' as <-.
  rewrite Hregression in Htarget.
  cbv [value checkpoint_callback bind logger_info ret fst].
  change (String.eqb "regression" "regression") with true. cbv iota.
  eexists. split; [reflexivity|]. cbn. rewrite Htarget. repeat split.
Qed.

Lemma regression_early_stopping_against_checkpoint_witness :
  exists self p,
    __init__ (sample_config "ConAN" false) false
             (torch.device_of_string "cpu") "ckpt" "logs" "val" = Some self
    /\ value (checkpoint_callback self "run1" "regression") sample_world
       = Some (Some p)
    /\ EarlyStopping.mode (early_stopping_callback self false) = "max"
    /\ ModelCheckpoint.mode p = "min"
    /\ EarlyStopping.monitor (early_stopping_callback self false)
       = ModelCheckpoint.monitor p.
Proof.
  destruct (init_target (sample_config "ConAN" false) false
              (torch.device_of_string "cpu") "ckpt" "logs" "val")
    as (self & Hinit & _).
  destruct (regression_early_stopping_against_checkpoint
              (sample_config "ConAN" false) false
              (torch.device_of_string "cpu") "ckpt" "logs" "val"
              self "run1" sample_world Hinit eq_refl)
    as (p & Hp & Hes & Hcp & Hmax & Hmin).
  exists self, p. repeat split; try assumption. now rewrite Hes, Hcp.
Defined.

(** ** Metric computation, continued *)

(** X14: the trade-off flag of [classification_metric] only appends: on
    the same inputs the call without trade-off raises exactly when the
    call with trade-off does, and otherwise returns the first two
    elements of its result. *)
Theorem classification_metric_flag_only_appends (Tensor NDArray : Type)
    (long : Tensor -> Tensor) (to_numpy : Tensor -> NDArray)
    (roc_auc_score : NDArray -> NDArray -> option float)
    (precision_recall_curve : NDArray -> NDArray -> option (NDArray * NDArray * NDArray))
    (auc : NDArray -> NDArray -> option float)
    (predicted expected : Tensor) :
  classification_metric Tensor NDArray long to_numpy roc_auc_score
      precision_recall_curve auc predicted expected false
  = option_map (firstn 2)
      (classification_metric Tensor NDArray long to_numpy roc_auc_score
         precision_recall_curve auc predicted expected true).
Proof.
  unfold classification_metric.
  destruct (roc_auc_score _ _) as [auc_score|]; [|reflexivity]. cbn [option_bind].
  destruct (precision_recall_curve _ _) as [[[precision recall] thresholds]|];
    [|reflexivity]. cbn [option_bind].
  destruct (auc recall precision) as [prc_score|]; reflexivity.
Qed.
